(** * Faster R-CNN orchestrator ([frcnn/network.py]): a shallow embedding

    The development follows the one source file of the repository, the
    class [FasterRCNN]:

    - tensors whose contents the class never inspects (image, feature map,
      proposals, pooled features) are records carrying a shape and flat data;
    - the small integer arrays the anchor generator builds are nested lists,
      and every TensorFlow / NumPy operation it calls ([range], [reshape],
      [stack], [transpose], broadcasting [+]) is an executable list function;
    - Python dictionaries whose keys are chosen by a collaborator are
      [gmap string _]; the dictionary literal returned by [_build] is a record;
    - the object [self] and the graph collections TensorFlow keeps per process
      ([tf.losses], [tf.summary]) form an explicit state, threaded by a small
      state-and-exception monad.

    Numbers: tensor entries and loss values are mathematical integers (the
    shifts are integer tensors in the source, far from overflow for any grid
    that fits in memory; the floating-point arithmetic on losses is
    idealised), configuration floats that are only passed on are rationals. *)

From Stdlib Require Import ZArith QArith Qround List Lia.
From stdpp Require Import base list gmap strings fin_maps.

Local Open Scope Z_scope.

(** ** Exceptions and results *)

(** A Python exception, identified by the name of its class. *)
Inductive exn : Type := Exception (class : string).

Definition KeyError : exn := Exception "KeyError".
Definition IndexError : exn := Exception "IndexError".
Definition ConfigError : exn := Exception "ConfigError".

Inductive result (A : Type) : Type :=
| Ok (a : A)
| Raise (e : exn).
Arguments Ok {A} a.
Arguments Raise {A} e.

(** ** Tensors *)

(** A tensor that is only passed around: static shape and row-major data. *)
Record Tensor : Type := mkTensor { t_shape : list nat; t_data : list Z }.

(** A rank-4 tensor in NHWC layout: images [(1, height, width, 3)] and
    feature maps [(1, H', W', C)]. *)
Record Tensor4 : Type := mkTensor4 {
  batch : nat;
  height : nat;
  width : nat;
  channels : nat;
  entries : list Z
}.

(** Python sequence operations used on shape vectors. *)
Definition slice {A} (start stop : nat) (l : list A) : list A :=
  take (stop - start) (drop start l).

Definition getitem {A} (l : list A) (i : nat) : result A :=
  match l !! i with
  | Some x => Ok x
  | None => Raise IndexError
  end.

(** Python dictionary subscript [d[k]]. *)
Definition dict_getitem {V} (d : gmap string V) (k : string) : result V :=
  match d !! k with
  | Some v => Ok v
  | None => Raise KeyError
  end.

(** Cutting a flat list into [count] rows of [n] entries. *)
Fixpoint chunks {A} (n count : nat) (l : list A) : list (list A) :=
  match count with
  | O => []
  | S c => take n l :: chunks n c (drop n l)
  end.

(** NumPy / TensorFlow broadcasting along one axis: an axis of size one is
    stretched to the other operand's size, otherwise the two sizes agree and
    the elements are paired. *)
Definition bcast_zip {A B C} (f : A -> B -> C) (xs : list A) (ys : list B)
  : list C :=
  match xs, ys with
  | [x], _ => map (f x) ys
  | _, [y] => map (fun x => f x y) xs
  | _, _ => zip_with f xs ys
  end.

(** ** The process-wide graph collections *)

Inductive summary : Type :=
| ScalarSummary (name : string) (value : Z)
| ImageSummary (name : string) (image : Tensor4) (max_outputs : nat).

(** The collections of the default graph the class writes to:
    [tf.GraphKeys.LOSSES], [tf.GraphKeys.REGULARIZATION_LOSSES],
    [tf.GraphKeys.SUMMARIES] and the collection the source names ['Losses']. *)
Record Graph : Type := mkGraph {
  LOSSES : list Z;
  REGULARIZATION_LOSSES : list Z;
  SUMMARIES : list summary;
  Losses : list summary
}.

(** ** Collaborators

    The sub-components are objects of classes defined elsewhere; each is a
    record of the methods the orchestrator calls on it. *)

(** [VGG]: the pretrained backbone, called on the image. *)
Record Pretrained : Type := { vgg_call : Tensor4 -> Tensor4 }.

(** [RPN]: called on [(pretrained_output, gt_boxes, image_shape, all_anchors,
    is_training)]; [loss] maps its prediction to a dictionary of losses. *)
Record RPNModule : Type := {
  rpn_call : Tensor4 -> Tensor -> list nat -> list (list Z) -> bool ->
             gmap string Tensor;
  rpn_loss : gmap string Tensor -> gmap string Z
}.

(** [ROIPoolingLayer]: called on [(proposals, pretrained_output)]. *)
Record ROIPool : Type := { roi_call : Tensor -> Tensor4 -> Tensor }.

(** [RCNN]: called on [(roi_pool, proposals, gt_boxes)]. *)
Record RCNNModule : Type := {
  rcnn_call : Tensor -> Tensor -> Tensor -> gmap string Tensor;
  rcnn_loss : gmap string Tensor -> gmap string Z
}.

(** Modelled from the spec: the configuration object, whose class is not part
    of the sources. It carries the options of the configuration surface: the
    anchor options and [PRETRAINED_TRAINABLE], which [__init__] reads, and the
    four loss weights the spec lists. *)
Record Config : Type := mkConfig {
  ANCHOR_BASE_SIZE : Q;
  ANCHOR_SCALES : list Q;
  ANCHOR_RATIOS : list Q;
  ANCHOR_STRIDE : Z;
  PRETRAINED_TRAINABLE : bool;
  rpn_cls_weight : Z;
  rpn_reg_weight : Z;
  rcnn_cls_weight : Z;
  rcnn_reg_weight : Z
}.

(** The names [network.py] imports from the rest of the package. Constructors
    may raise; [draw_bboxes] returns the image with the boxes drawn. *)
Class Imports : Type := {
  generate_anchors_reference : Q -> list Q -> list Q -> result (list (list Z));
  VGG : bool -> result Pretrained;
  RPN : nat -> result RPNModule;
  ROIPoolingLayer : result ROIPool;
  RCNN : option nat -> result RCNNModule;
  draw_bboxes : Tensor4 -> Tensor -> Tensor4
}.

(** ** The orchestrator object and the state of a run *)

Record FasterRCNN : Type := mkFasterRCNN {
  module_name : string;
  _cfg : Config;
  _num_classes : option nat;
  _anchor_base_size : Q;
  _anchor_scales : list Q;
  _anchor_ratios : list Q;
  _anchor_stride : Z;
  _anchor_reference : list (list Z);
  _num_anchors : nat;
  _rpn_cls_loss_weight : Z;
  _rpn_reg_loss_weight : Z;
  _rcnn_cls_loss_weight : Z;
  _rcnn_reg_loss_weight : Z;
  _pretrained : Pretrained;
  _rpn : RPNModule;
  _roi_pool : ROIPool;
  _rcnn : RCNNModule
}.

(** The dictionary [_build] returns. *)
Record PredictionDict : Type := mkPredictionDict {
  image_shape : list nat;
  all_anchors : list (list Z);
  rpn_prediction : gmap string Tensor;
  classification_prediction : gmap string Tensor;
  roi_pool : Tensor;
  gt_boxes : Tensor;
  rpn_drawn_image : Tensor4
}.

(** What a method can read and write: the object and the graph. *)
Record World : Type := mkWorld { self : FasterRCNN; graph : Graph }.

(** Methods are state transformers that return a value or raise. *)
Definition M (A : Type) : Type := World -> result A * World.

#[global] Instance result_ret : MRet result := fun A a => Ok a.
#[global] Instance result_bind : MBind result := fun A B f r =>
  match r with
  | Ok a => f a
  | Raise e => Raise e
  end.

#[global] Instance M_ret : MRet M := fun A a w => (Ok a, w).
#[global] Instance M_bind : MBind M := fun A B f m w =>
  match m w with
  | (Ok a, w') => f a w'
  | (Raise e, w') => (Raise e, w')
  end.

Definition lift {A} (r : result A) : M A := fun w => (r, w).
Definition get_self : M FasterRCNN := fun w => (Ok (self w), w).
Definition modify_graph (f : Graph -> Graph) : M unit :=
  fun w => (Ok tt, mkWorld (self w) (f (graph w))).
Definition get_graph : M Graph := fun w => (Ok (graph w), w).

(** [for x in xs: body(x)] *)
Fixpoint for_each {A} (xs : list A) (body : A -> M unit) : M unit :=
  match xs with
  | [] => mret tt
  | x :: rest => _ ← body x; for_each rest body
  end.

(** The sum of a list of scalars ([add_n]). *)
Definition add_n (ts : list Z) : Z := foldr Z.add 0 ts.

Module tf.

Definition shape (t : Tensor4) : list nat :=
  [batch t; height t; width t; channels t].

(** [tf.range(n)]: the integers [0 .. n-1]. *)
Definition range (n : nat) : list Z := map Z.of_nat (seq 0 n).

(** [t * c] for a vector [t] and a Python integer [c]. *)
Definition mul_scalar (t : list Z) (c : Z) : list Z := map (fun v => v * c) t.

(** [tf.reshape(t, [-1])] of a matrix. *)
Definition ravel2 (t : list (list Z)) : list Z := concat t.

(** Row-major data of a rank-3 tensor. *)
Definition ravel3 (t : list (list (list Z))) : list Z := concat (concat t).

(** [tf.reshape] to a rank-2 and to a rank-3 shape, from row-major data. *)
Definition reshape2 (d0 d1 : nat) (flat : list Z) : list (list Z) :=
  chunks d1 d0 flat.

Definition reshape3 (d0 d1 d2 : nat) (flat : list Z) : list (list (list Z)) :=
  chunks d1 d0 (chunks d2 (d0 * d1) flat).

(** [tf.stack(ts, axis=0)] of vectors: the vectors become the rows. *)
Definition stack (ts : list (list Z)) : list (list Z) := ts.

(** Exchange of the two leading axes. The number of columns is read off
    the first row, as the shape of the tensor has it. *)
Definition swap_axes {A} (d : A) (t : list (list A)) : list (list A) :=
  map (fun j => map (fun row => nth j row d) t)
      (seq 0 (length (hd [] t))).

(** [tf.transpose(m)] of a matrix. *)
Definition transpose (m : list (list Z)) : list (list Z) := swap_axes 0 m.

(** [tf.transpose(t, (1, 0, 2))] of a rank-3 tensor. *)
Definition transpose_102 (t : list (list (list Z))) : list (list (list Z)) :=
  swap_axes [] t.

(** Broadcasting [a + b] of two rank-3 tensors. *)
Definition add3 (a b : list (list (list Z))) : list (list (list Z)) :=
  bcast_zip (bcast_zip (bcast_zip Z.add)) a b.

Module summary.
(** [tf.summary.image(name, tensor, max_outputs)]: default collection. *)
Definition image (name : string) (tensor : Tensor4) (max_outputs : nat)
  : M unit :=
  modify_graph (fun g =>
    mkGraph (LOSSES g) (REGULARIZATION_LOSSES g)
            (SUMMARIES g ++ [ImageSummary name tensor max_outputs])
            (Losses g)).

(** [tf.summary.scalar(name, tensor, collections=['Losses'])]. *)
Definition scalar (name : string) (tensor : Z) : M unit :=
  modify_graph (fun g =>
    mkGraph (LOSSES g) (REGULARIZATION_LOSSES g) (SUMMARIES g)
            (Losses g ++ [ScalarSummary name tensor])).
End summary.

Module losses.
(** [tf.losses.add_loss(loss)]: appended to [tf.GraphKeys.LOSSES]. *)
Definition add_loss (loss : Z) : M unit :=
  modify_graph (fun g =>
    mkGraph (LOSSES g ++ [loss]) (REGULARIZATION_LOSSES g) (SUMMARIES g)
            (Losses g)).

(** [tf.losses.get_total_loss()]: every loss of the collection, then the
    regularization losses, summed. *)
Definition get_total_loss : M Z :=
  g ← get_graph; mret (add_n (LOSSES g ++ REGULARIZATION_LOSSES g)).
End losses.

End tf.

(** Modelled from the spec: [utils.ops.meshgrid], imported by [network.py] but
    not part of the sources. The tiling contract pairs every grid cell
    [(i, j)] with the shift [(i*stride, j*stride)] and the source expects a
    [(H x W, 4)] tensor of shifts, so the two grids have one row per entry of
    [y] and one column per entry of [x]: [xgrid[j][i] = x[i]] and
    [ygrid[j][i] = y[j]]. *)
Definition meshgrid (x y : list Z) : list (list Z) * list (list Z) :=
  (map (fun _ => x) y, map (fun v => map (fun _ => v) x) y).

Module np.
(** [np.array(seq)] of a Python sequence of numbers. *)
Definition array {A} (l : list A) : list A := l.
End np.

(** ** The class [FasterRCNN] *)

Section FasterRCNN.
Context `{Imports}.

Definition __init__ (config : Config) (num_classes : option nat)
  (name : string) : result FasterRCNN :=
  let cfg := config in
  let anchor_base_size := ANCHOR_BASE_SIZE cfg in
  let anchor_scales := np.array (ANCHOR_SCALES cfg) in
  let anchor_ratios := np.array (ANCHOR_RATIOS cfg) in
  let anchor_stride := ANCHOR_STRIDE cfg in
  anchor_reference ←
    generate_anchors_reference anchor_base_size anchor_ratios anchor_scales;
  let num_anchors := length anchor_reference in
  let rpn_cls_loss_weight := 1 in
  let rpn_reg_loss_weight := 2 in
  let rcnn_cls_loss_weight := 1 in
  let rcnn_reg_loss_weight := 2 in
  pretrained ← VGG (PRETRAINED_TRAINABLE cfg);
  rpn ← RPN num_anchors;
  roi_pool ← ROIPoolingLayer;
  rcnn ← RCNN num_classes;
  mret (mkFasterRCNN name cfg num_classes
          anchor_base_size anchor_scales anchor_ratios anchor_stride
          anchor_reference num_anchors
          rpn_cls_loss_weight rpn_reg_loss_weight
          rcnn_cls_loss_weight rcnn_reg_loss_weight
          pretrained rpn roi_pool rcnn).

Definition _generate_anchors (feature_map : Tensor4) : M (list (list Z)) :=
  this ← get_self;
  let feature_map_shape := slice 1 3 (tf.shape feature_map) in
  grid_width ← lift (getitem feature_map_shape 1);
  grid_height ← lift (getitem feature_map_shape 0);
  let shift_x := tf.mul_scalar (tf.range grid_width) (_anchor_stride this) in
  let shift_y := tf.mul_scalar (tf.range grid_height) (_anchor_stride this) in
  let '(shift_x, shift_y) := meshgrid shift_x shift_y in
  let shift_x := tf.ravel2 shift_x in
  let shift_y := tf.ravel2 shift_y in
  let shifts := tf.stack [shift_x; shift_y; shift_x; shift_y] in
  let shifts := tf.transpose shifts in
  let num_anchors := length (_anchor_reference this) in
  let num_anchor_points := length shifts in
  let all_anchors :=
    tf.add3
      (tf.reshape3 1 num_anchors 4 (tf.ravel2 (_anchor_reference this)))
      (tf.transpose_102
         (tf.reshape3 1 num_anchor_points 4 (tf.ravel2 shifts))) in
  let all_anchors :=
    tf.reshape2 (num_anchors * num_anchor_points) 4
                (tf.ravel3 all_anchors) in
  mret all_anchors.

Definition _build (image : Tensor4) (gt_boxes : Tensor) (is_training : bool)
  : M PredictionDict :=
  this ← get_self;
  let image_shape := slice 1 3 (tf.shape image) in
  let pretrained_output := vgg_call (_pretrained this) image in
  all_anchors ← _generate_anchors pretrained_output;
  let rpn_prediction :=
    rpn_call (_rpn this) pretrained_output gt_boxes image_shape all_anchors
             is_training in
  proposals ← lift (dict_getitem rpn_prediction "proposals");
  let roi_pool := roi_call (_roi_pool this) proposals pretrained_output in
  proposals ← lift (dict_getitem rpn_prediction "proposals");
  let classification_prediction :=
    rcnn_call (_rcnn this) roi_pool proposals gt_boxes in
  proposals ← lift (dict_getitem rpn_prediction "proposals");
  let drawn_image := draw_bboxes image proposals in
  _ ← tf.summary.image "image" image 20;
  _ ← tf.summary.image "top_10_rpn_boxes" drawn_image 20;
  mret (mkPredictionDict image_shape all_anchors rpn_prediction
          classification_prediction roi_pool gt_boxes drawn_image).

Definition load_from_checkpoints {A} (checkpoints : A) : M unit :=
  mret tt.

Definition loss (prediction_dict : PredictionDict) : M Z :=
  this ← get_self;
  let rpn_loss_dict :=
    rpn_loss (_rpn this) (rpn_prediction prediction_dict) in
  let rcnn_loss_dict :=
    rcnn_loss (_rcnn this) (classification_prediction prediction_dict) in
  v ← lift (dict_getitem rpn_loss_dict "rpn_cls_loss");
  let rpn_loss_dict :=
    <["rpn_cls_loss" := v * _rpn_cls_loss_weight this]> rpn_loss_dict in
  v ← lift (dict_getitem rpn_loss_dict "rpn_reg_loss");
  let rpn_loss_dict :=
    <["rpn_reg_loss" := v * _rpn_reg_loss_weight this]> rpn_loss_dict in
  v ← lift (dict_getitem rcnn_loss_dict "rcnn_cls_loss");
  let rcnn_loss_dict :=
    <["rcnn_cls_loss" := v * _rcnn_cls_loss_weight this]> rcnn_loss_dict in
  v ← lift (dict_getitem rcnn_loss_dict "rcnn_reg_loss");
  let rcnn_loss_dict :=
    <["rcnn_reg_loss" := v * _rcnn_reg_loss_weight this]> rcnn_loss_dict in
  _ ← for_each (map_to_list rpn_loss_dict ++ map_to_list rcnn_loss_dict)
        (fun '(loss_name, loss_tensor) =>
           _ ← tf.summary.scalar loss_name loss_tensor;
           tf.losses.add_loss loss_tensor);
  total_loss ← tf.losses.get_total_loss;
  _ ← tf.summary.scalar "total_loss" total_loss;
  mret total_loss.

End FasterRCNN.

(** ** The tiling the spec describes *)

(** A box [(x1, y1, x2, y2)] offset by [(dx, dy)] in both coordinate pairs. *)
Definition shift_box (dx dy : Z) (box : list Z) : list Z :=
  match box with
  | [x1; y1; x2; y2] => [x1 + dx; y1 + dy; x2 + dx; y2 + dy]
  | _ => box
  end.

(** The cells [(i, j)] of a grid, row after row: [i] is the column (x) index
    and [j] the row (y) index. *)
Definition grid_cells (grid_width grid_height : nat) : list (nat * nat) :=
  flat_map (fun j => map (fun i => (i, j)) (seq 0 grid_width))
           (seq 0 grid_height).

(** [tile] as the spec words it: for every grid cell [(i, j)] the reference
    set offset by [(i*stride, j*stride)], cell-major, then anchor index. *)
Definition tile (reference : list (list Z)) (grid_width grid_height : nat)
  (stride : Z) : list (list Z) :=
  flat_map (fun '(i, j) =>
              map (shift_box (Z.of_nat i * stride) (Z.of_nat j * stride))
                  reference)
           (grid_cells grid_width grid_height).

(** The sum of the values of a dictionary of losses. *)
Definition sum_values (d : gmap string Z) : Z := add_n (map_to_list d).*2.

(** The shift of a grid cell, as a row [(sx, sy, sx, sy)]. *)
Definition cell_shift (stride : Z) (cell : nat * nat) : list Z :=
  [Z.of_nat cell.1 * stride; Z.of_nat cell.2 * stride;
   Z.of_nat cell.1 * stride; Z.of_nat cell.2 * stride].

(** ** The joint loss the spec describes *)

(** The four weights an orchestrator applies, and the four a configuration
    lists, in the order rpn_cls, rpn_reg, rcnn_cls, rcnn_reg. *)
Definition loss_weights (this : FasterRCNN) : Z * Z * Z * Z :=
  (_rpn_cls_loss_weight this, _rpn_reg_loss_weight this,
   _rcnn_cls_loss_weight this, _rcnn_reg_loss_weight this).

Definition config_weights (cfg : Config) : Z * Z * Z * Z :=
  (rpn_cls_weight cfg, rpn_reg_weight cfg,
   rcnn_cls_weight cfg, rcnn_reg_weight cfg).

(** The joint loss as the spec words it: each of the four component losses
    multiplied by its weight, then summed. *)
Definition weighted_sum (weights : Z * Z * Z * Z) (this : FasterRCNN)
  (prediction_dict : PredictionDict) : option Z :=
  let '(w_rpn_cls, w_rpn_reg, w_rcnn_cls, w_rcnn_reg) := weights in
  let rpn_loss_dict :=
    rpn_loss (_rpn this) (rpn_prediction prediction_dict) in
  let rcnn_loss_dict :=
    rcnn_loss (_rcnn this) (classification_prediction prediction_dict) in
  rpn_cls ← rpn_loss_dict !! "rpn_cls_loss";
  rpn_reg ← rpn_loss_dict !! "rpn_reg_loss";
  rcnn_cls ← rcnn_loss_dict !! "rcnn_cls_loss";
  rcnn_reg ← rcnn_loss_dict !! "rcnn_reg_loss";
  Some (rpn_cls * w_rpn_cls + rpn_reg * w_rpn_reg +
        rcnn_cls * w_rcnn_cls + rcnn_reg * w_rcnn_reg).

(** What a dictionary of losses holds besides the entries [k1] and [k2]. *)
Definition other_losses (d : gmap string Z) (k1 k2 : string) : Z :=
  sum_values (delete k2 (delete k1 d)).

(** The summaries a list of named losses adds to the collection ['Losses']. *)
Definition scalar_summaries (items : list (string * Z)) : list summary :=
  map (fun '(loss_name, loss_tensor) => ScalarSummary loss_name loss_tensor)
      items.

(** ** A concrete instance

    Stand-ins for the collaborators, used to run the class on examples. *)
Module Example.

(** One box per (ratio, scale) pair, centred at the origin. *)
Definition reference (base_size : Q) (ratios scales : list Q)
  : list (list Z) :=
  flat_map (fun ratio =>
    map (fun scale =>
           let w := Qfloor (base_size * scale) in
           let h := Qfloor (base_size * scale * ratio) in
           [- (w / 2); - (h / 2); w / 2; h / 2]) scales) ratios.

(** A backbone of stride 16 with 512 output channels. *)
Definition backbone : Pretrained :=
  {| vgg_call image :=
       let h := (height image / 16)%nat in
       let w := (width image / 16)%nat in
       mkTensor4 (batch image) h w 512
                 (repeat 0 (batch image * h * w * 512)) |}.

(** An RPN that proposes the whole image and reports the given losses. *)
Definition rpn (cls_loss reg_loss : Z) : RPNModule :=
  {| rpn_call _ _ image_shape _ _ :=
       {[ "proposals" :=
            mkTensor [1; 4]%nat
              [0; 0; Z.of_nat (nth 1 image_shape O);
               Z.of_nat (nth 0 image_shape O)] ]};
     rpn_loss _ :=
       <["rpn_cls_loss" := cls_loss]> {[ "rpn_reg_loss" := reg_loss ]} |}.

Definition pooling : ROIPool :=
  {| roi_call proposals feature_map :=
       mkTensor [nth 0 (t_shape proposals) O; 7; 7; channels feature_map]%nat
                [] |}.

Definition rcnn (cls_loss reg_loss : Z) : RCNNModule :=
  {| rcnn_call pooled proposals _ :=
       {[ "cls_prob" := mkTensor [nth 0 (t_shape proposals) O; 2]%nat [] ]};
     rcnn_loss _ :=
       <["rcnn_cls_loss" := cls_loss]> {[ "rcnn_reg_loss" := reg_loss ]} |}.

Definition imports : Imports :=
  {| generate_anchors_reference b r s := Ok (reference b r s);
     VGG _ := Ok backbone;
     RPN _ := Ok (rpn 3 5);
     ROIPoolingLayer := Ok pooling;
     RCNN _ := Ok (rcnn 4 6);
     draw_bboxes image _ := image |}.

(** Base size 16, scales 8, 16, 32, ratios 1/2, 1, 2, stride 16; the four
    loss weights are set to 3. *)
Definition config : Config :=
  mkConfig 16 [8; 16; 32]%Q [1 # 2; 1; 2]%Q 16 false 3 3 3 3.

(** The same options with a stride of zero. *)
Definition config_stride_0 : Config :=
  mkConfig 16 [8; 16; 32]%Q [1 # 2; 1; 2]%Q 0 false 3 3 3 3.

Definition empty_graph : Graph := mkGraph [] [] [] [].

(** An orchestrator as [__init__] leaves it, with the given sub-components. *)
Definition model (r : RPNModule) (c : RCNNModule) : FasterRCNN :=
  mkFasterRCNN "fasterrcnn" config (Some 20%nat)
    16 [8; 16; 32]%Q [1 # 2; 1; 2]%Q 16
    (reference 16 [1 # 2; 1; 2]%Q [8; 16; 32]%Q) 9
    1 2 1 2 backbone r pooling c.

Definition world : World := mkWorld (model (rpn 3 5) (rcnn 4 6)) empty_graph.

(** A graph in which a regularization loss of 7 is already registered. *)
Definition world_regularized : World :=
  mkWorld (model (rpn 3 5) (rcnn 4 6)) (mkGraph [] [7] [] []).


(** An image of shape [(1, 32, 48, 3)] and its [(1, 2, 3, 512)] feature
    map. *)
Definition image : Tensor4 := mkTensor4 1 32 48 3 (repeat 0 (1 * 32 * 48 * 3)).
Definition feature_map : Tensor4 := vgg_call backbone image.


(** One ground-truth box [(100, 100, 200, 200)]. *)
Definition ground_truth : Tensor := mkTensor [1; 4]%nat [100; 100; 200; 200].

Definition prediction : PredictionDict :=
  mkPredictionDict [32; 48]%nat [] ∅ ∅ (mkTensor [] []) ground_truth image.

End Example.

(** ** Sub-components that leave entries out, or add some

    Further stand-ins, for the behaviour of the class on dictionaries that
    lack an entry it reads or hold more than it reads. *)
Module Edge.

(** An RPN whose prediction has no ['proposals'] and whose dictionary of
    losses has no ['rpn_reg_loss']. *)
Definition rpn_silent : RPNModule :=
  {| rpn_call _ _ _ _ _ := ∅;
     rpn_loss _ := {[ "rpn_cls_loss" := 3 ]} |}.

Definition world_silent : World :=
  mkWorld (Example.model rpn_silent (Example.rcnn 4 6)) Example.empty_graph.

(** An RPN that reports a third loss, of 11, under ['rpn_extra']. *)
Definition rpn_verbose : RPNModule :=
  {| rpn_call := rpn_call (Example.rpn 3 5);
     rpn_loss _ :=
       <["rpn_extra" := 11]>
         (<["rpn_cls_loss" := 3]> {[ "rpn_reg_loss" := 5 ]}) |}.

Definition world_verbose : World :=
  mkWorld (Example.model rpn_verbose (Example.rcnn 4 6)) Example.empty_graph.

(** A feature map with no column. *)
Definition feature_map_empty : Tensor4 := mkTensor4 1 4 0 512 [].


End Edge.

(** * Auxiliary results *)

(** ** Lists: rows, chunks and broadcasting *)

Section ListFacts.
Context {A B C : Type}.

Lemma chunks_concat (n : nat) (rows : list (list A)) :
  Forall (fun r => length r = n) rows ->
  chunks n (length rows) (concat rows) = rows.
Proof.
  induction 1 as [|r rows Hr _ IH]; simpl; [reflexivity|].
  rewrite take_app_length', drop_app_length' by congruence.
  now rewrite IH.
Qed.

Lemma chunks_one (n : nat) (l : list A) : chunks n 1 l = [take n l].
Proof. reflexivity. Qed.

(** Broadcasting against an axis of size one. *)
Lemma bcast_zip_singleton_r (f : A -> B -> C) (xs : list A) (y : B) :
  bcast_zip f xs [y] = map (fun x => f x y) xs.
Proof. destruct xs as [|x [|x' xs]]; reflexivity. Qed.

Lemma bcast_zip_singleton_l (f : A -> B -> C) (x : A) (ys : list B) :
  bcast_zip f [x] ys = map (f x) ys.
Proof. reflexivity. Qed.

(** Two axes of the same size, other than one, are paired. *)
Lemma bcast_zip_same (f : A -> B -> C) (xs : list A) (ys : list B) :
  length xs <> 1%nat -> length ys <> 1%nat ->
  bcast_zip f xs ys = zip_with f xs ys.
Proof.
  destruct xs as [|x [|x' xs]], ys as [|y [|y' ys]]; simpl; congruence.
Qed.

(** Exchanging the axes of a table given column by column. *)
Lemma swap_axes_columns (d : B) (f0 : A -> B) (fs : list (A -> B))
  (l : list A) :
  tf.swap_axes d (map (fun f => map f l) (f0 :: fs)) =
  map (fun x => map (fun f => f x) (f0 :: fs)) l.
Proof.
  unfold tf.swap_axes.
  assert (length (hd [] (map (fun f => map f l) (f0 :: fs))) = length l)
    as -> by (simpl; apply length_map).
  apply list_eq; intros i.
  change (map ?g ?k !! i) with ((g <$> k) !! i).
  rewrite !list_lookup_fmap.
  destruct (l !! i) as [x|] eqn:Hx.
  - rewrite lookup_seq_lt by (eapply lookup_lt_Some; eauto). simpl.
    f_equal. rewrite map_map. f_equal.
    + rewrite nth_lookup.
      change (map f0 l !! i) with ((f0 <$> l) !! i).
      now rewrite list_lookup_fmap, Hx.
    + apply map_ext; intros f. rewrite nth_lookup.
      change (map f l !! i) with ((f <$> l) !! i).
      now rewrite list_lookup_fmap, Hx.
  - rewrite lookup_seq_ge by (eapply lookup_ge_None; eauto). reflexivity.
Qed.


Lemma length_flat_map_block (f : A -> list B) (c : nat) (l : list A) :
  (forall y, length (f y) = c) ->
  length (flat_map f l) = (length l * c)%nat.
Proof.
  intros Hlen. induction l as [|y l IH]; simpl; [reflexivity|].
  rewrite length_app, Hlen, IH. reflexivity.
Qed.

End ListFacts.

(** ** The anchor generator *)

Lemma meshgrid_x (fx fy : nat -> Z) (lw lh : list nat) :
  tf.ravel2 (meshgrid (map fx lw) (map fy lh)).1 =
  map (fun cell => fx cell.1)
      (flat_map (fun j => map (fun i => (i, j)) lw) lh).
Proof.
  unfold tf.ravel2, meshgrid; cbn [fst].
  induction lh as [|j lh IH]; [reflexivity|].
  cbn [map concat flat_map]. rewrite IH, map_app, map_map. reflexivity.
Qed.

Lemma meshgrid_y (fx fy : nat -> Z) (lw lh : list nat) :
  tf.ravel2 (meshgrid (map fx lw) (map fy lh)).2 =
  map (fun cell => fy cell.2)
      (flat_map (fun j => map (fun i => (i, j)) lw) lh).
Proof.
  unfold tf.ravel2, meshgrid; cbn [snd].
  induction lh as [|j lh IH]; [reflexivity|].
  cbn [map concat flat_map]. rewrite IH, map_app, !map_map. reflexivity.
Qed.

Lemma scaled_range (n : nat) (stride : Z) :
  tf.mul_scalar (tf.range n) stride =
  map (fun i => Z.of_nat i * stride) (seq 0 n).
Proof. unfold tf.mul_scalar, tf.range. now rewrite map_map. Qed.

(** The [(H x W, 4)] tensor of shifts: one row per grid cell. *)
Lemma shifts_rows (grid_width grid_height : nat) (stride : Z) :
  let '(shift_x, shift_y) :=
    meshgrid (tf.mul_scalar (tf.range grid_width) stride)
             (tf.mul_scalar (tf.range grid_height) stride) in
  tf.transpose
    (tf.stack [tf.ravel2 shift_x; tf.ravel2 shift_y;
               tf.ravel2 shift_x; tf.ravel2 shift_y]) =
  map (cell_shift stride) (grid_cells grid_width grid_height).
Proof.
  rewrite !scaled_range.
  pose proof (meshgrid_x (fun i => Z.of_nat i * stride)
                (fun j => Z.of_nat j * stride)
                (seq 0 grid_width) (seq 0 grid_height)) as Hx.
  pose proof (meshgrid_y (fun i => Z.of_nat i * stride)
                (fun j => Z.of_nat j * stride)
                (seq 0 grid_width) (seq 0 grid_height)) as Hy.
  destruct (meshgrid _ _) as [gx gy]. simpl in Hx, Hy. rewrite Hx, Hy.
  unfold tf.transpose, tf.stack.
  exact (swap_axes_columns 0
           (fun cell : nat * nat => Z.of_nat cell.1 * stride)
           [fun cell => Z.of_nat cell.2 * stride;
            fun cell => Z.of_nat cell.1 * stride;
            fun cell => Z.of_nat cell.2 * stride]
           (grid_cells grid_width grid_height)).
Qed.

Lemma cell_shift_length (stride : Z) (cell : nat * nat) :
  length (cell_shift stride cell) = 4%nat.
Proof. reflexivity. Qed.

(** Adding a shift row to a box, entry by entry. *)
Lemma add_cell_shift (stride : Z) (cell : nat * nat) (box : list Z) :
  length box = 4%nat ->
  bcast_zip Z.add box (cell_shift stride cell) =
  shift_box (Z.of_nat cell.1 * stride) (Z.of_nat cell.2 * stride) box.
Proof.
  intros Hbox.
  destruct box as [|x1 [|y1 [|x2 [|y2 [|]]]]]; try discriminate Hbox.
  reflexivity.
Qed.

Lemma shift_box_length (dx dy : Z) (box : list Z) :
  length (shift_box dx dy box) = length box.
Proof. now destruct box as [|x1 [|y1 [|x2 [|y2 [|]]]]]. Qed.

(** A rank-2 array reshaped to [(1, n, 4)] is the array in a singleton. *)
Lemma reshape3_rows (rows : list (list Z)) :
  Forall (fun r => length r = 4%nat) rows ->
  tf.reshape3 1 (length rows) 4 (tf.ravel2 rows) = [rows].
Proof.
  intros Hrows. unfold tf.reshape3, tf.ravel2.
  rewrite Nat.mul_1_l, chunks_concat by assumption.
  rewrite chunks_one. now rewrite take_ge.
Qed.

Lemma transpose_102_rows (rows : list (list Z)) :
  tf.transpose_102 [rows] = map (fun r => [r]) rows.
Proof.
  unfold tf.transpose_102.
  assert ([rows] = map (fun f : list Z -> list Z => map f rows) [id]) as ->
    by (simpl; now rewrite map_id).
  rewrite swap_axes_columns. apply map_ext; reflexivity.
Qed.

Lemma tile_length (reference : list (list Z)) (grid_width grid_height : nat)
  (stride : Z) :
  length (tile reference grid_width grid_height stride) =
  (grid_width * grid_height * length reference)%nat.
Proof.
  unfold tile, grid_cells.
  rewrite (length_flat_map_block _ (length reference))
    by (intros [i j]; apply length_map).
  rewrite (length_flat_map_block _ grid_width)
    by (intros j; now rewrite length_map, length_seq).
  rewrite length_seq. lia.
Qed.

Lemma tile_rows (reference : list (list Z)) (grid_width grid_height : nat)
  (stride : Z) :
  Forall (fun box => length box = 4%nat) reference ->
  Forall (fun box => length box = 4%nat)
         (tile reference grid_width grid_height stride).
Proof.
  intros Href. unfold tile.
  induction (grid_cells grid_width grid_height) as [|[i j] cells IH];
    simpl; [constructor|].
  apply Forall_app; split; [|exact IH].
  apply Forall_map. eapply Forall_impl; [exact Href|].
  intros box Hbox; simpl. now rewrite shift_box_length.
Qed.

Lemma generate_anchors_tile (w : World) (feature_map : Tensor4) :
  Forall (fun box => length box = 4%nat) (_anchor_reference (self w)) ->
  _generate_anchors feature_map w =
  (Ok (tile (_anchor_reference (self w)) (width feature_map)
            (height feature_map) (_anchor_stride (self w))), w).
Proof.
  intros Href. unfold _generate_anchors.
  unfold mbind, M_bind, get_self, lift, mret, M_ret.
  cbn [slice tf.shape getitem lookup list_lookup take drop Nat.sub].
  pose proof (shifts_rows (width feature_map) (height feature_map)
                (_anchor_stride (self w))) as Hs.
  destruct (meshgrid _ _) as [gx gy]. rewrite Hs. clear Hs gx gy.
  set (reference := _anchor_reference (self w)) in *.
  set (stride := _anchor_stride (self w)).
  set (cells := grid_cells (width feature_map) (height feature_map)).
  rewrite (reshape3_rows reference) by assumption.
  rewrite reshape3_rows
    by (apply Forall_map, Forall_true; intros c; apply cell_shift_length).
  rewrite transpose_102_rows.
  unfold tf.add3. rewrite bcast_zip_singleton_l, !map_map.
  assert (map (fun cell =>
                 bcast_zip (bcast_zip Z.add) reference
                           [cell_shift stride cell]) cells =
          map (fun '(i, j) =>
                 map (shift_box (Z.of_nat i * stride) (Z.of_nat j * stride))
                     reference) cells) as ->.
  { apply map_ext; intros [i j]. rewrite bcast_zip_singleton_r.
    apply map_ext_Forall. eapply Forall_impl; [exact Href|].
    intros box Hbox. now apply add_cell_shift. }
  unfold tf.ravel3. rewrite <- flat_map_concat_map.
  fold (tile reference (width feature_map) (height feature_map) stride).
  unfold tf.reshape2.
  replace (length reference * length (map (cell_shift stride) cells))%nat
    with (length (tile reference (width feature_map) (height feature_map)
                       stride)).
  - rewrite chunks_concat by now apply tile_rows. reflexivity.
  - rewrite tile_length, length_map. unfold cells, grid_cells.
    rewrite (length_flat_map_block _ (width feature_map))
      by (intros j; now rewrite length_map, length_seq).
    rewrite length_seq. lia.
Qed.




(** The generator reads the object and the two spatial dimensions of the
    feature map, and nothing else. *)
Lemma generate_anchors_run (w : World) (feature_map : Tensor4) :
  exists anchors,
    forall (w' : World) (feature_map' : Tensor4),
      _anchor_reference (self w') = _anchor_reference (self w) ->
      _anchor_stride (self w') = _anchor_stride (self w) ->
      height feature_map' = height feature_map ->
      width feature_map' = width feature_map ->
      _generate_anchors feature_map' w' = (Ok anchors, w').
Proof.
  exists (match (_generate_anchors feature_map w).1 with
          | Ok anchors => anchors
          | Raise _ => []
          end).
  intros w' fm' Href Hstride Hh Hw. unfold _generate_anchors.
  unfold mbind, M_bind, get_self, lift, mret, M_ret.
  cbn [slice tf.shape getitem lookup list_lookup take drop Nat.sub].
  rewrite Href, Hstride, Hh, Hw.
  destruct (meshgrid _ _) as [gx gy]. reflexivity.
Qed.

(** ** The forward pass *)

Section Forward.
Context `{Imports}.

(** The graph after a forward pass: two image summaries are appended. *)
Lemma build_run (w : World) (image : Tensor4) (gt : Tensor)
  (is_training : bool) (anchors : list (list Z)) (proposals : Tensor) :
  let this := self w in
  let g := graph w in
  let pretrained_output := vgg_call (_pretrained this) image in
  let prediction :=
    rpn_call (_rpn this) pretrained_output gt [height image; width image]
             anchors is_training in
  let pooled := roi_call (_roi_pool this) proposals pretrained_output in
  _generate_anchors pretrained_output w = (Ok anchors, w) ->
  prediction !! "proposals" = Some proposals ->
  _build image gt is_training w =
  (Ok (mkPredictionDict [height image; width image] anchors prediction
         (rcnn_call (_rcnn this) pooled proposals gt) pooled gt
         (draw_bboxes image proposals)),
   mkWorld this
     (mkGraph (LOSSES g) (REGULARIZATION_LOSSES g)
        ((SUMMARIES g ++ [ImageSummary "image" image 20]) ++
         [ImageSummary "top_10_rpn_boxes" (draw_bboxes image proposals) 20])
        (Losses g))).
Proof.
  intros this g pretrained_output prediction pooled Hgen Hp.
  unfold _build, mbind, M_bind, get_self.
  fold this pretrained_output. rewrite Hgen.
  cbn [slice tf.shape take drop Nat.sub]. fold prediction.
  unfold lift, dict_getitem. rewrite Hp. reflexivity.
Qed.

(** A forward pass that returns went through the anchor generator and
    found proposals in the RPN's prediction. *)
Lemma build_inv (w w' : World) (image : Tensor4) (gt : Tensor)
  (is_training : bool) (b : PredictionDict) :
  _build image gt is_training w = (Ok b, w') ->
  self w' = self w /\
  _generate_anchors (vgg_call (_pretrained (self w)) image) w =
    (Ok (all_anchors b), w).
Proof.
  intros Hb.
  destruct (generate_anchors_run w (vgg_call (_pretrained (self w)) image))
    as [anchors Hgen].
  specialize (Hgen w _ eq_refl eq_refl eq_refl eq_refl).
  destruct (rpn_call (_rpn (self w)) (vgg_call (_pretrained (self w)) image)
              gt [height image; width image] anchors is_training
              !! "proposals") as [proposals|] eqn:Hp.
  - rewrite (build_run w image gt is_training anchors proposals Hgen Hp)
      in Hb.
    inversion Hb; subst. split; [reflexivity | exact Hgen].
  - unfold _build, mbind, M_bind, get_self in Hb. rewrite Hgen in Hb.
    cbn [slice tf.shape take drop Nat.sub] in Hb.
    unfold lift, dict_getitem in Hb. rewrite Hp in Hb. discriminate Hb.
Qed.

End Forward.

(** ** The joint loss *)

Lemma add_n_app (l k : list Z) : add_n (l ++ k) = add_n l + add_n k.
Proof. unfold add_n. induction l as [|x l IH]; simpl; lia. Qed.

Lemma add_n_permutation (l k : list Z) : l ≡ₚ k -> add_n l = add_n k.
Proof.
  unfold add_n. induction 1; simpl; lia.
Qed.

(** Overwriting one entry of a dictionary of losses. *)
Lemma sum_values_insert (d : gmap string Z) (k : string) (v : Z) :
  sum_values (<[k := v]> d) = v + sum_values (delete k d).
Proof.
  unfold sum_values. rewrite <- insert_delete_eq.
  rewrite (add_n_permutation _ (v :: (map_to_list (delete k d)).*2)).
  - reflexivity.
  - rewrite map_to_list_insert by apply lookup_delete_eq. reflexivity.
Qed.

(** The two weighted entries and the rest of a dictionary. *)
Lemma sum_values_weighted (d : gmap string Z) (k1 k2 : string) (v1 v2 : Z) :
  k1 <> k2 ->
  sum_values (<[k2 := v2]> (<[k1 := v1]> d)) =
  v1 + v2 + other_losses d k1 k2.
Proof.
  intros Hne. unfold other_losses.
  rewrite sum_values_insert, delete_insert_ne by congruence.
  rewrite sum_values_insert.
  rewrite (delete_delete d k1 k2). lia.
Qed.

(** The loop over the weighted losses: each one is summarised and added to
    the collection of losses, in turn. *)
Lemma for_each_add_loss (items : list (string * Z)) (w : World) :
  for_each items
    (fun '(loss_name, loss_tensor) =>
       _ ← tf.summary.scalar loss_name loss_tensor;
       tf.losses.add_loss loss_tensor) w =
  (Ok tt,
   mkWorld (self w)
     (mkGraph (LOSSES (graph w) ++ items.*2)
        (REGULARIZATION_LOSSES (graph w)) (SUMMARIES (graph w))
        (Losses (graph w) ++ scalar_summaries items))).
Proof.
  revert w. induction items as [|[name v] items IH]; intros [this g].
  - simpl. rewrite !app_nil_r. now destruct g.
  - cbn [for_each]. unfold mbind at 1, M_bind at 1.
    unfold mbind at 1, M_bind at 1.
    unfold tf.summary.scalar, tf.losses.add_loss, modify_graph.
    cbn [self graph LOSSES REGULARIZATION_LOSSES SUMMARIES Losses].
    rewrite IH.
    cbn [self graph LOSSES REGULARIZATION_LOSSES SUMMARIES Losses
         fmap list_fmap snd scalar_summaries map].
    now rewrite <- !app_assoc.
Qed.

(** One call of [loss]: the value returned and the state left behind. *)
Lemma loss_run (w : World) (prediction_dict : PredictionDict)
  (rpn_cls rpn_reg rcnn_cls rcnn_reg : Z) :
  let this := self w in
  let g := graph w in
  let rpn_loss_dict :=
    rpn_loss (_rpn this) (rpn_prediction prediction_dict) in
  let rcnn_loss_dict :=
    rcnn_loss (_rcnn this) (classification_prediction prediction_dict) in
  rpn_loss_dict !! "rpn_cls_loss" = Some rpn_cls ->
  rpn_loss_dict !! "rpn_reg_loss" = Some rpn_reg ->
  rcnn_loss_dict !! "rcnn_cls_loss" = Some rcnn_cls ->
  rcnn_loss_dict !! "rcnn_reg_loss" = Some rcnn_reg ->
  let items :=
    map_to_list
      (<["rpn_reg_loss" := rpn_reg * _rpn_reg_loss_weight this]>
         (<["rpn_cls_loss" := rpn_cls * _rpn_cls_loss_weight this]>
            rpn_loss_dict)) ++
    map_to_list
      (<["rcnn_reg_loss" := rcnn_reg * _rcnn_reg_loss_weight this]>
         (<["rcnn_cls_loss" := rcnn_cls * _rcnn_cls_loss_weight this]>
            rcnn_loss_dict)) in
  let total :=
    add_n ((LOSSES g ++ items.*2) ++ REGULARIZATION_LOSSES g) in
  loss prediction_dict w =
  (Ok total,
   mkWorld this
     (mkGraph (LOSSES g ++ items.*2) (REGULARIZATION_LOSSES g) (SUMMARIES g)
        ((Losses g ++ scalar_summaries items) ++
         [ScalarSummary "total_loss" total]))).
Proof.
  intros this g rpn_loss_dict rcnn_loss_dict H1 H2 H3 H4 items total.
  unfold loss. unfold mbind at 1, M_bind at 1, get_self.
  fold this rpn_loss_dict rcnn_loss_dict.
  unfold mbind at 1, M_bind at 1, lift at 1, dict_getitem at 1.
  rewrite H1.
  unfold mbind at 1, M_bind at 1, lift at 1, dict_getitem at 1.
  rewrite lookup_insert_ne, H2 by discriminate.
  unfold mbind at 1, M_bind at 1, lift at 1, dict_getitem at 1.
  rewrite H3.
  unfold mbind at 1, M_bind at 1, lift at 1, dict_getitem at 1.
  rewrite lookup_insert_ne, H4 by discriminate.
  fold items.
  unfold mbind at 1, M_bind at 1. rewrite for_each_add_loss.
  reflexivity.
Qed.

(** The sum of what one call adds to the collection of losses. *)
Lemma added_losses (this : FasterRCNN) (rpn_loss_dict rcnn_loss_dict :
  gmap string Z) (rpn_cls rpn_reg rcnn_cls rcnn_reg : Z) :
  add_n
    (map_to_list
       (<["rpn_reg_loss" := rpn_reg * _rpn_reg_loss_weight this]>
          (<["rpn_cls_loss" := rpn_cls * _rpn_cls_loss_weight this]>
             rpn_loss_dict)) ++
     map_to_list
       (<["rcnn_reg_loss" := rcnn_reg * _rcnn_reg_loss_weight this]>
          (<["rcnn_cls_loss" := rcnn_cls * _rcnn_cls_loss_weight this]>
             rcnn_loss_dict))).*2 =
  rpn_cls * _rpn_cls_loss_weight this + rpn_reg * _rpn_reg_loss_weight this +
  rcnn_cls * _rcnn_cls_loss_weight this +
  rcnn_reg * _rcnn_reg_loss_weight this +
  other_losses rpn_loss_dict "rpn_cls_loss" "rpn_reg_loss" +
  other_losses rcnn_loss_dict "rcnn_cls_loss" "rcnn_reg_loss".
Proof.
  rewrite fmap_app, add_n_app.
  fold (sum_values
          (<["rpn_reg_loss" := rpn_reg * _rpn_reg_loss_weight this]>
             (<["rpn_cls_loss" := rpn_cls * _rpn_cls_loss_weight this]>
                rpn_loss_dict))).
  fold (sum_values
          (<["rcnn_reg_loss" := rcnn_reg * _rcnn_reg_loss_weight this]>
             (<["rcnn_cls_loss" := rcnn_cls * _rcnn_cls_loss_weight this]>
                rcnn_loss_dict))).
  rewrite !sum_values_weighted by discriminate. lia.
Qed.

(** ** Construction *)

Section Construction.
Context `{Imports}.

(** [__init__] returns as soon as the five constructors it calls return. *)
Lemma init_run (config : Config) (num_classes : option nat) (name : string)
  (reference : list (list Z)) (pretrained : Pretrained) (rpn : RPNModule)
  (pooling : ROIPool) (rcnn : RCNNModule) :
  generate_anchors_reference (ANCHOR_BASE_SIZE config)
    (ANCHOR_RATIOS config) (ANCHOR_SCALES config) = Ok reference ->
  VGG (PRETRAINED_TRAINABLE config) = Ok pretrained ->
  RPN (length reference) = Ok rpn ->
  ROIPoolingLayer = Ok pooling ->
  RCNN num_classes = Ok rcnn ->
  __init__ config num_classes name =
  Ok (mkFasterRCNN name config num_classes (ANCHOR_BASE_SIZE config)
        (ANCHOR_SCALES config) (ANCHOR_RATIOS config)
        (ANCHOR_STRIDE config) reference (length reference) 1 2 1 2
        pretrained rpn pooling rcnn).
Proof.
  intros Href Hvgg Hrpn Hroi Hrcnn.
  unfold __init__, np.array, mbind, result_bind.
  now rewrite Href, Hvgg, Hrpn, Hroi, Hrcnn.
Qed.

(** The weights of a constructed orchestrator are those written in
    [__init__]. *)
Lemma init_weights (config : Config) (num_classes : option nat)
  (name : string) (this : FasterRCNN) :
  __init__ config num_classes name = Ok this ->
  loss_weights this = (1, 2, 1, 2).
Proof.
  unfold __init__, np.array, mbind, result_bind.
  destruct (generate_anchors_reference _ _ _); [|discriminate].
  destruct (VGG _); [|discriminate].
  destruct (RPN _); [|discriminate].
  destruct ROIPoolingLayer; [|discriminate].
  destruct (RCNN _); [|discriminate].
  intros Hthis. inversion Hthis. reflexivity.
Qed.

End Construction.

(** * The specification, statement by statement *)

(** ** Anchor generation *)





(** C6: the anchor set is a function of the two spatial dimensions of the
    feature map and of the construction-time options alone: feature maps of
    equal height and width give identical anchors whatever their channels and
    entries, the generator leaves the state as it found it, and a second
    forward pass regenerates the anchors of the first. *)
Theorem C6_anchors_depend_on_grid_shape_only
  (w1 w2 : World) (feature_map1 feature_map2 : Tensor4) :
  _anchor_reference (self w1) = _anchor_reference (self w2) ->
  _anchor_stride (self w1) = _anchor_stride (self w2) ->
  height feature_map1 = height feature_map2 ->
  width feature_map1 = width feature_map2 ->
  (exists anchors,
      _generate_anchors feature_map1 w1 = (Ok anchors, w1) /\
      _generate_anchors feature_map2 w2 = (Ok anchors, w2)) /\
  (forall (imports : Imports) image gt gt' training training' b b' w' w'',
      _build image gt training w1 = (Ok b, w') ->
      _build image gt' training' w' = (Ok b', w'') ->
      all_anchors b = all_anchors b').
Proof.
  intros Href Hstride Hh Hw. split.
  - destruct (generate_anchors_run w1 feature_map1) as [anchors Hgen].
    exists anchors. split; apply Hgen; congruence.
  - intros imports image gt gt' training training' b b' w' w'' Hb Hb'.
    apply build_inv in Hb as [Hself Hgen].
    apply build_inv in Hb' as [_ Hgen'].
    destruct (generate_anchors_run w1
                (vgg_call (_pretrained (self w1)) image)) as [anchors Hrun].
    rewrite (Hrun w1 _ eq_refl eq_refl eq_refl eq_refl) in Hgen.
    rewrite Hself in Hgen'.
    rewrite (Hrun w' _ (f_equal _ Hself) (f_equal _ Hself) eq_refl eq_refl)
      in Hgen'.
    congruence.
Qed.

Lemma C6_same_grid_other_contents :
  exists anchors,
    _generate_anchors Example.feature_map Example.world =
      (Ok anchors, Example.world) /\
    _generate_anchors (mkTensor4 5 2 3 1 [1; 2; 3]) Example.world_regularized =
      (Ok anchors, Example.world_regularized) /\
    length anchors = 54%nat.
Proof.
  destruct (C6_anchors_depend_on_grid_shape_only
              Example.world Example.world_regularized
              Example.feature_map (mkTensor4 5 2 3 1 [1; 2; 3])
              eq_refl eq_refl eq_refl eq_refl)
    as [(anchors & Hgen1 & Hgen2) _].
  exists anchors. split; [exact Hgen1|]. split; [exact Hgen2|].
  assert (Hlen : match (_generate_anchors Example.feature_map
                          Example.world).1 with
                 | Ok a => length a = 54%nat
                 | Raise _ => False
                 end) by (vm_compute; reflexivity).
  rewrite Hgen1 in Hlen. exact Hlen.
Defined.

(** ** The forward pass and the checkpoints *)

(** C5, as the code has it: whenever the RPN's prediction holds proposals,
    [_build] returns a bundle with the spatial shape of the input image (not
    of the feature map), the anchors generated for the feature map, the RPN
    outputs, the classification outputs, the pooled features, the ground-truth
    boxes exactly as passed in, and the image with the proposals drawn. *)
Theorem C5_build_returns_the_bundle (imports : Imports) (w : World)
  (image : Tensor4) (gt : Tensor) (is_training : bool)
  (anchors : list (list Z)) (proposals : Tensor) :
  _generate_anchors (vgg_call (_pretrained (self w)) image) w =
    (Ok anchors, w) ->
  rpn_call (_rpn (self w)) (vgg_call (_pretrained (self w)) image) gt
           [height image; width image] anchors is_training
    !! "proposals" = Some proposals ->
  exists b w',
    _build image gt is_training w = (Ok b, w') /\
    image_shape b = [height image; width image] /\
    all_anchors b = anchors /\
    rpn_prediction b =
      rpn_call (_rpn (self w)) (vgg_call (_pretrained (self w)) image) gt
               [height image; width image] anchors is_training /\
    classification_prediction b =
      rcnn_call (_rcnn (self w)) (roi_pool b) proposals gt /\
    roi_pool b =
      roi_call (_roi_pool (self w)) proposals
               (vgg_call (_pretrained (self w)) image) /\
    gt_boxes b = gt /\
    rpn_drawn_image b = draw_bboxes image proposals.
Proof.
  intros Hgen Hp. do 2 eexists. split.
  - apply (build_run w image gt is_training anchors proposals Hgen Hp).
  - cbn. repeat split.
Qed.

Lemma C5_example_bundle :
  exists b w',
    @_build Example.imports Example.image Example.ground_truth true
            Example.world = (Ok b, w') /\
    image_shape b = [32; 48]%nat /\
    length (all_anchors b) = 54%nat /\
    gt_boxes b = Example.ground_truth.
Proof.
  destruct (generate_anchors_run Example.world Example.feature_map)
    as [anchors Hgen].
  specialize (Hgen Example.world Example.feature_map
                eq_refl eq_refl eq_refl eq_refl).
  destruct (C5_build_returns_the_bundle Example.imports Example.world
              Example.image Example.ground_truth true anchors
              (mkTensor [1; 4]%nat [0; 0; 48; 32]) Hgen eq_refl)
    as (b & w' & Hb & Hshape & Hanchors & _ & _ & _ & Hgt & _).
  exists b, w'. split; [exact Hb|]. split; [exact Hshape|].
  split; [|exact Hgt].
  rewrite Hanchors.
  assert (Hlen : match (_generate_anchors Example.feature_map
                          Example.world).1 with
                 | Ok a => length a = 54%nat
                 | Raise _ => False
                 end) by (vm_compute; reflexivity).
  rewrite Hgen in Hlen. exact Hlen.
Defined.

(** The shape in the bundle is the image's, [(32, 48)], where the feature
    map's is [(2, 3)]. *)
Lemma C5_bundle_holds_image_shape_not_feature_map_shape :
  exists b w',
    @_build Example.imports Example.image Example.ground_truth true
            Example.world = (Ok b, w') /\
    tf.shape (vgg_call (_pretrained (self Example.world)) Example.image) =
      [1; 2; 3; 512]%nat /\
    image_shape b = [32; 48]%nat /\
    image_shape b <>
      slice 1 3 (tf.shape (vgg_call (_pretrained (self Example.world))
                                    Example.image)).
Proof.
  destruct (generate_anchors_run Example.world Example.feature_map)
    as [anchors Hgen].
  specialize (Hgen Example.world Example.feature_map
                eq_refl eq_refl eq_refl eq_refl).
  do 2 eexists. split.
  - apply (@build_run Example.imports Example.world Example.image
             Example.ground_truth true anchors
             (mkTensor [1; 4]%nat [0; 0; 48; 32]) Hgen eq_refl).
  - split; [reflexivity|]. split; [reflexivity|]. vm_compute. discriminate.
Qed.

(** C8: the classification outputs of the bundle are what the RCNN head
    returned on the pooled features, the proposals and the ground truth:
    nothing is applied to them between the head and the return. *)
Theorem C8_classification_output_is_the_heads (imports : Imports) (w : World)
  (image : Tensor4) (gt : Tensor) (is_training : bool)
  (anchors : list (list Z)) (proposals : Tensor) :
  _generate_anchors (vgg_call (_pretrained (self w)) image) w =
    (Ok anchors, w) ->
  rpn_call (_rpn (self w)) (vgg_call (_pretrained (self w)) image) gt
           [height image; width image] anchors is_training
    !! "proposals" = Some proposals ->
  exists b w',
    _build image gt is_training w = (Ok b, w') /\
    rpn_prediction b !! "proposals" = Some proposals /\
    classification_prediction b =
      rcnn_call (_rcnn (self w))
        (roi_call (_roi_pool (self w)) proposals
                  (vgg_call (_pretrained (self w)) image))
        proposals gt.
Proof.
  intros Hgen Hp. do 2 eexists. split.
  - apply (build_run w image gt is_training anchors proposals Hgen Hp).
  - cbn. split; [exact Hp | reflexivity].
Qed.

Lemma C8_example_head_output :
  exists b w',
    @_build Example.imports Example.image Example.ground_truth true
            Example.world = (Ok b, w') /\
    classification_prediction b =
      {[ "cls_prob" := mkTensor [1; 2]%nat [] ]}.
Proof.
  destruct (generate_anchors_run Example.world Example.feature_map)
    as [anchors Hgen].
  specialize (Hgen Example.world Example.feature_map
                eq_refl eq_refl eq_refl eq_refl).
  destruct (C8_classification_output_is_the_heads Example.imports
              Example.world Example.image Example.ground_truth true anchors
              (mkTensor [1; 4]%nat [0; 0; 48; 32]) Hgen eq_refl)
    as (b & w' & Hb & _ & Hcls).
  exists b, w'. split; [exact Hb | exact Hcls].
Defined.

(** C10: [load_from_checkpoints] returns [None] for every argument and leaves
    the orchestrator and the graph as they were. *)
Theorem C10_load_from_checkpoints_does_nothing {A : Type} (checkpoints : A)
  (w : World) :
  load_from_checkpoints checkpoints w = (Ok tt, w).
Proof. reflexivity. Qed.

(** ** The loss and the construction *)







(** C4, as the code has it: the four loss weights are the constants 1, 2, 1
    and 2 that [__init__] writes, whatever the configuration says, and [loss]
    applies these. *)
Theorem C4_loss_weights_are_constants (imports : Imports) (config : Config)
  (num_classes : option nat) (name : string) (this : FasterRCNN) :
  __init__ config num_classes name = Ok this ->
  loss_weights this = (1, 2, 1, 2) /\
  forall (g : Graph) (prediction_dict : PredictionDict)
         (rpn_cls rpn_reg rcnn_cls rcnn_reg : Z),
    rpn_loss (_rpn this) (rpn_prediction prediction_dict)
      !! "rpn_cls_loss" = Some rpn_cls ->
    rpn_loss (_rpn this) (rpn_prediction prediction_dict)
      !! "rpn_reg_loss" = Some rpn_reg ->
    rcnn_loss (_rcnn this) (classification_prediction prediction_dict)
      !! "rcnn_cls_loss" = Some rcnn_cls ->
    rcnn_loss (_rcnn this) (classification_prediction prediction_dict)
      !! "rcnn_reg_loss" = Some rcnn_reg ->
    (loss prediction_dict (mkWorld this g)).1 =
    Ok (rpn_cls * 1 + rpn_reg * 2 + rcnn_cls * 1 + rcnn_reg * 2 +
        other_losses (rpn_loss (_rpn this) (rpn_prediction prediction_dict))
                     "rpn_cls_loss" "rpn_reg_loss" +
        other_losses (rcnn_loss (_rcnn this)
                        (classification_prediction prediction_dict))
                     "rcnn_cls_loss" "rcnn_reg_loss" +
        add_n (LOSSES g) + add_n (REGULARIZATION_LOSSES g)).
Proof.
  intros Hinit. pose proof (init_weights _ _ _ _ Hinit) as Hw.
  split; [exact Hw|].
  intros g prediction_dict rpn_cls rpn_reg rcnn_cls rcnn_reg H1 H2 H3 H4.
  rewrite (loss_run (mkWorld this g) prediction_dict _ _ _ _ H1 H2 H3 H4).
  cbn [fst self graph]. f_equal.
  rewrite !add_n_app, added_losses.
  unfold loss_weights in Hw. injection Hw as -> -> -> ->. lia.
Qed.

Lemma C4_example_weights :
  exists this,
    @__init__ Example.imports Example.config (Some 20%nat) "fasterrcnn" =
      Ok this /\
    loss_weights this = (1, 2, 1, 2).
Proof.
  eexists. split; [reflexivity|].
  apply (C4_loss_weights_are_constants Example.imports Example.config
           (Some 20%nat) "fasterrcnn" _ eq_refl).
Defined.

(** A configuration that sets the four weights to 3 yields an orchestrator
    that applies 1, 2, 1 and 2: on component losses 3, 5, 4 and 6, [loss]
    returns 29 where the configured weights give 54. *)
Lemma C4_configured_weights_are_ignored :
  config_weights Example.config = (3, 3, 3, 3) /\
  exists this,
    @__init__ Example.imports Example.config (Some 20%nat) "fasterrcnn" =
      Ok this /\
    loss_weights this <> config_weights Example.config /\
    (loss Example.prediction (mkWorld this Example.empty_graph)).1 = Ok 29 /\
    weighted_sum (config_weights Example.config) this Example.prediction =
      Some 54.
Proof.
  split; [reflexivity|]. eexists. split; [reflexivity|].
  split; [vm_compute; discriminate|].
  split; vm_compute; reflexivity.
Qed.

(** C7, as the code has it: [__init__] checks nothing. Whenever the five
    constructors it calls return, it returns an orchestrator that stores the
    scales, the ratios, the stride and the class count as given, whatever
    their values. *)
Theorem C7_init_validates_nothing (imports : Imports) (config : Config)
  (num_classes : option nat) (name : string)
  (reference : list (list Z)) (pretrained : Pretrained) (rpn : RPNModule)
  (pooling : ROIPool) (rcnn : RCNNModule) :
  generate_anchors_reference (ANCHOR_BASE_SIZE config)
    (ANCHOR_RATIOS config) (ANCHOR_SCALES config) = Ok reference ->
  VGG (PRETRAINED_TRAINABLE config) = Ok pretrained ->
  RPN (length reference) = Ok rpn ->
  ROIPoolingLayer = Ok pooling ->
  RCNN num_classes = Ok rcnn ->
  exists this,
    __init__ config num_classes name = Ok this /\
    _anchor_stride this = ANCHOR_STRIDE config /\
    _anchor_scales this = ANCHOR_SCALES config /\
    _anchor_ratios this = ANCHOR_RATIOS config /\
    _num_classes this = num_classes /\
    _anchor_reference this = reference.
Proof.
  intros Href Hvgg Hrpn Hroi Hrcnn. eexists. split.
  - apply (init_run _ _ _ _ _ _ _ _ Href Hvgg Hrpn Hroi Hrcnn).
  - cbn. repeat split.
Qed.

Lemma C7_example_stride_0_accepted :
  exists this,
    @__init__ Example.imports Example.config_stride_0 None "fasterrcnn" =
      Ok this /\
    _anchor_stride this = 0 /\ _num_classes this = None.
Proof.
  destruct (C7_init_validates_nothing Example.imports Example.config_stride_0
              None "fasterrcnn" _ _ _ _ _
              eq_refl eq_refl eq_refl eq_refl eq_refl)
    as (this & Hinit & Hstride & _ & _ & Hnc & _).
  exists this. split; [exact Hinit|]. split; [exact Hstride | exact Hnc].
Defined.

(** A stride of zero raises no [ConfigError]: the constructor returns. *)
Lemma C7_nonpositive_stride_is_not_rejected :
  ANCHOR_STRIDE Example.config_stride_0 <= 0 /\
  @__init__ Example.imports Example.config_stride_0 (Some 20%nat)
            "fasterrcnn" <> Raise ConfigError /\
  exists this,
    @__init__ Example.imports Example.config_stride_0 (Some 20%nat)
              "fasterrcnn" = Ok this /\
    _anchor_stride this = 0.
Proof.
  split; [simpl; lia|]. split; [vm_compute; discriminate|].
  eexists. split; reflexivity.
Qed.

(** * Further properties of the class *)

(** ** Outcomes of [loss] and of [_build] *)

(** [loss] reads the four components before it registers anything: either
    all four are there, or it raises [KeyError] and the state is as before. *)
Lemma loss_cases (w : World) (prediction_dict : PredictionDict) :
  (exists rpn_cls rpn_reg rcnn_cls rcnn_reg,
      rpn_loss (_rpn (self w)) (rpn_prediction prediction_dict)
        !! "rpn_cls_loss" = Some rpn_cls /\
      rpn_loss (_rpn (self w)) (rpn_prediction prediction_dict)
        !! "rpn_reg_loss" = Some rpn_reg /\
      rcnn_loss (_rcnn (self w)) (classification_prediction prediction_dict)
        !! "rcnn_cls_loss" = Some rcnn_cls /\
      rcnn_loss (_rcnn (self w)) (classification_prediction prediction_dict)
        !! "rcnn_reg_loss" = Some rcnn_reg) \/
  loss prediction_dict w = (Raise KeyError, w).
Proof.
  destruct (rpn_loss (_rpn (self w)) (rpn_prediction prediction_dict)
              !! "rpn_cls_loss") as [rpn_cls|] eqn:H1.
  2: { right. unfold loss, mbind, M_bind, get_self, lift, dict_getitem.
       now rewrite H1. }
  destruct (rpn_loss (_rpn (self w)) (rpn_prediction prediction_dict)
              !! "rpn_reg_loss") as [rpn_reg|] eqn:H2.
  2: { right. unfold loss, mbind, M_bind, get_self, lift, dict_getitem.
       rewrite H1. rewrite lookup_insert_ne by discriminate. now rewrite H2. }
  destruct (rcnn_loss (_rcnn (self w))
              (classification_prediction prediction_dict)
              !! "rcnn_cls_loss") as [rcnn_cls|] eqn:H3.
  2: { right. unfold loss, mbind, M_bind, get_self, lift, dict_getitem.
       rewrite H1. rewrite lookup_insert_ne by discriminate.
       now rewrite H2, H3. }
  destruct (rcnn_loss (_rcnn (self w))
              (classification_prediction prediction_dict)
              !! "rcnn_reg_loss") as [rcnn_reg|] eqn:H4.
  2: { right. unfold loss, mbind, M_bind, get_self, lift, dict_getitem.
       rewrite H1. rewrite lookup_insert_ne by discriminate.
       rewrite H2, H3. rewrite lookup_insert_ne by discriminate.
       now rewrite H4. }
  left. now exists rpn_cls, rpn_reg, rcnn_cls, rcnn_reg.
Qed.

(** The value [loss] returns depends on the object and on the two
    collections of losses, not on the summaries. *)
Lemma loss_value_frame (w w' : World) (prediction_dict : PredictionDict) :
  self w' = self w ->
  LOSSES (graph w') = LOSSES (graph w) ->
  REGULARIZATION_LOSSES (graph w') = REGULARIZATION_LOSSES (graph w) ->
  (loss prediction_dict w').1 = (loss prediction_dict w).1.
Proof.
  intros Hself HL HR.
  destruct (loss_cases w prediction_dict)
    as [(c1 & r1 & c2 & r2 & H1 & H2 & H3 & H4) | Hraise].
  - rewrite (loss_run w prediction_dict _ _ _ _ H1 H2 H3 H4).
    rewrite <- Hself in H1, H2, H3, H4.
    rewrite (loss_run w' prediction_dict _ _ _ _ H1 H2 H3 H4).
    cbn [fst]. now rewrite Hself, HL, HR.
  - destruct (loss_cases w' prediction_dict)
      as [(c1 & r1 & c2 & r2 & H1 & H2 & H3 & H4) | Hraise'].
    + rewrite Hself in H1, H2, H3, H4.
      rewrite (loss_run w prediction_dict _ _ _ _ H1 H2 H3 H4) in Hraise.
      discriminate Hraise.
    + now rewrite Hraise, Hraise'.
Qed.

(** A forward pass that returns, in full. *)
Lemma build_graph `{Imports} (w w' : World) (image : Tensor4) (gt : Tensor)
  (is_training : bool) (b : PredictionDict) :
  _build image gt is_training w = (Ok b, w') ->
  exists proposals,
    rpn_prediction b !! "proposals" = Some proposals /\
    rpn_drawn_image b = draw_bboxes image proposals /\
    w' = mkWorld (self w)
           (mkGraph (LOSSES (graph w)) (REGULARIZATION_LOSSES (graph w))
              ((SUMMARIES (graph w) ++ [ImageSummary "image" image 20]) ++
               [ImageSummary "top_10_rpn_boxes" (rpn_drawn_image b) 20])
              (Losses (graph w))).
Proof.
  intros Hb.
  destruct (generate_anchors_run w (vgg_call (_pretrained (self w)) image))
    as [anchors Hgen].
  specialize (Hgen w _ eq_refl eq_refl eq_refl eq_refl).
  destruct (rpn_call (_rpn (self w)) (vgg_call (_pretrained (self w)) image)
              gt [height image; width image] anchors is_training
              !! "proposals") as [proposals|] eqn:Hp.
  - rewrite (build_run w image gt is_training anchors proposals Hgen Hp) in Hb.
    inversion Hb; subst. exists proposals. cbn. now rewrite Hp.
  - unfold _build, mbind, M_bind, get_self in Hb. rewrite Hgen in Hb.
    cbn [slice tf.shape take drop Nat.sub] in Hb.
    unfold lift, dict_getitem in Hb. rewrite Hp in Hb. discriminate Hb.
Qed.

(** X1: when one of the four component losses is missing from the
    dictionaries of the sub-components, [loss] raises [KeyError] and leaves
    the graph as it was: nothing is registered, no summary is written. *)
Theorem X1_loss_missing_component_raises (w : World)
  (prediction_dict : PredictionDict) :
  rpn_loss (_rpn (self w)) (rpn_prediction prediction_dict)
    !! "rpn_cls_loss" = None \/
  rpn_loss (_rpn (self w)) (rpn_prediction prediction_dict)
    !! "rpn_reg_loss" = None \/
  rcnn_loss (_rcnn (self w)) (classification_prediction prediction_dict)
    !! "rcnn_cls_loss" = None \/
  rcnn_loss (_rcnn (self w)) (classification_prediction prediction_dict)
    !! "rcnn_reg_loss" = None ->
  loss prediction_dict w = (Raise KeyError, w).
Proof.
  intros Hmissing.
  destruct (loss_cases w prediction_dict)
    as [(c1 & r1 & c2 & r2 & H1 & H2 & H3 & H4) | Hraise]; [|exact Hraise].
  destruct Hmissing as [Hm | [Hm | [Hm | Hm]]]; congruence.
Qed.

Lemma X1_example_missing_rpn_reg_loss :
  rpn_loss (_rpn (self Edge.world_silent)) (rpn_prediction Example.prediction)
    !! "rpn_reg_loss" = None /\
  loss Example.prediction Edge.world_silent =
    (Raise KeyError, Edge.world_silent).
Proof.
  split; [reflexivity|].
  apply X1_loss_missing_component_raises. right; left. reflexivity.
Defined.

(** X2: when the prediction of the RPN has no ['proposals'], the forward
    pass raises [KeyError] before any summary is written: the state is as it
    was. *)
Theorem X2_build_without_proposals_raises (imports : Imports) (w : World)
  (image : Tensor4) (gt : Tensor) (is_training : bool)
  (anchors : list (list Z)) :
  _generate_anchors (vgg_call (_pretrained (self w)) image) w =
    (Ok anchors, w) ->
  rpn_call (_rpn (self w)) (vgg_call (_pretrained (self w)) image) gt
           [height image; width image] anchors is_training
    !! "proposals" = None ->
  _build image gt is_training w = (Raise KeyError, w).
Proof.
  intros Hgen Hp. unfold _build, mbind, M_bind, get_self. rewrite Hgen.
  cbn [slice tf.shape take drop Nat.sub].
  unfold lift, dict_getitem. now rewrite Hp.
Qed.

Lemma X2_example_silent_rpn :
  @_build Example.imports Example.image Example.ground_truth true
          Edge.world_silent = (Raise KeyError, Edge.world_silent).
Proof.
  destruct (generate_anchors_run Edge.world_silent Example.feature_map)
    as [anchors Hgen].
  specialize (Hgen Edge.world_silent Example.feature_map
                eq_refl eq_refl eq_refl eq_refl).
  apply (X2_build_without_proposals_raises Example.imports Edge.world_silent
           Example.image Example.ground_truth true anchors Hgen eq_refl).
Defined.

(** X3: a forward pass that returns leaves the object and the collections of
    losses untouched; its only effect is to append two image summaries, of
    the input image and of the image with the proposals drawn, to the default
    collection of summaries. *)
Theorem X3_build_appends_two_image_summaries (imports : Imports)
  (w w' : World) (image : Tensor4) (gt : Tensor) (is_training : bool)
  (b : PredictionDict) :
  _build image gt is_training w = (Ok b, w') ->
  self w' = self w /\
  LOSSES (graph w') = LOSSES (graph w) /\
  REGULARIZATION_LOSSES (graph w') = REGULARIZATION_LOSSES (graph w) /\
  Losses (graph w') = Losses (graph w) /\
  SUMMARIES (graph w') =
    SUMMARIES (graph w) ++
    [ImageSummary "image" image 20;
     ImageSummary "top_10_rpn_boxes" (rpn_drawn_image b) 20].
Proof.
  intros Hb. apply build_graph in Hb as (proposals & _ & _ & ->).
  cbn. repeat split. now rewrite <- app_assoc.
Qed.

Lemma X3_example_summaries :
  exists b w',
    @_build Example.imports Example.image Example.ground_truth true
            Example.world = (Ok b, w') /\
    LOSSES (graph w') = [] /\
    length (SUMMARIES (graph w')) = 2%nat.
Proof.
  destruct (generate_anchors_run Example.world Example.feature_map)
    as [anchors Hgen].
  specialize (Hgen Example.world Example.feature_map
                eq_refl eq_refl eq_refl eq_refl).
  pose proof (@build_run Example.imports Example.world Example.image
                Example.ground_truth true anchors
                (mkTensor [1; 4]%nat [0; 0; 48; 32]) Hgen eq_refl) as Hb.
  cbv zeta in Hb.
  do 2 eexists. split; [exact Hb|].
  destruct (X3_build_appends_two_image_summaries _ _ _ _ _ _ _ Hb)
    as (_ & HL & _ & _ & HS).
  split; [exact HL|]. rewrite HS. reflexivity.
Defined.

(** ** What [loss] leaves behind *)





(** X5: the weights touch the four components only: any other entry of the
    RPN's or of the RCNN's dictionary of losses is registered as it is, and
    summarised under its own name. *)
Theorem X5_other_entries_are_registered_unweighted (w : World)
  (prediction_dict : PredictionDict) (rpn_cls rpn_reg rcnn_cls rcnn_reg : Z)
  (name : string) (value : Z) :
  rpn_loss (_rpn (self w)) (rpn_prediction prediction_dict)
    !! "rpn_cls_loss" = Some rpn_cls ->
  rpn_loss (_rpn (self w)) (rpn_prediction prediction_dict)
    !! "rpn_reg_loss" = Some rpn_reg ->
  rcnn_loss (_rcnn (self w)) (classification_prediction prediction_dict)
    !! "rcnn_cls_loss" = Some rcnn_cls ->
  rcnn_loss (_rcnn (self w)) (classification_prediction prediction_dict)
    !! "rcnn_reg_loss" = Some rcnn_reg ->
  (rpn_loss (_rpn (self w)) (rpn_prediction prediction_dict)
     !! name = Some value /\
   name <> "rpn_cls_loss" /\ name <> "rpn_reg_loss") \/
  (rcnn_loss (_rcnn (self w)) (classification_prediction prediction_dict)
     !! name = Some value /\
   name <> "rcnn_cls_loss" /\ name <> "rcnn_reg_loss") ->
  exists total w',
    loss prediction_dict w = (Ok total, w') /\
    value ∈ LOSSES (graph w') /\
    ScalarSummary name value ∈ Losses (graph w').
Proof.
  intros H1 H2 H3 H4 Hother. do 2 eexists. split.
  - apply (loss_run w prediction_dict _ _ _ _ H1 H2 H3 H4).
  - cbn [graph LOSSES Losses].
    assert (Hitem : forall items : list (string * Z),
               (name, value) ∈ items ->
               value ∈ items.*2 /\
               ScalarSummary name value ∈ scalar_summaries items).
    { intros items Hin. split.
      - apply list_elem_of_fmap. now exists (name, value).
      - unfold scalar_summaries.
        change (map ?g items) with (g <$> items).
        apply list_elem_of_fmap. now exists (name, value). }
    match goal with |- _ ∈ _ ++ ?items.*2 /\ _ =>
      assert (Hin : (name, value) ∈ items)
    end.
    { apply elem_of_app.
      destruct Hother as [(Hv & Hn1 & Hn2) | (Hv & Hn1 & Hn2)];
        [left | right]; apply elem_of_map_to_list;
        now rewrite !lookup_insert_ne by congruence. }
    destruct (Hitem _ Hin) as [Hvalue Hsummary].
    split; rewrite !elem_of_app; [right | left; right]; assumption.
Qed.

Lemma X5_example_extra_entry :
  exists total w',
    loss Example.prediction Edge.world_verbose = (Ok total, w') /\
    11 ∈ LOSSES (graph w') /\
    total = 40.
Proof.
  destruct (X5_other_entries_are_registered_unweighted Edge.world_verbose
              Example.prediction 3 5 4 6 "rpn_extra" 11
              eq_refl eq_refl eq_refl eq_refl)
    as (total & w' & Hrun & Hin & _).
  { left. split; [reflexivity|]. split; discriminate. }
  exists total, w'. split; [exact Hrun|]. split; [exact Hin|].
  assert (Hvalue : (loss Example.prediction Edge.world_verbose).1 = Ok 40)
    by (vm_compute; reflexivity).
  rewrite Hrun in Hvalue. now injection Hvalue.
Defined.

(** X6: a forward pass does not change what [loss] returns: on the state a
    forward pass leaves, [loss] gives, for every bundle, the value or the
    exception it gives on the state before the pass. *)
Theorem X6_forward_pass_does_not_change_the_loss (imports : Imports)
  (w w' : World) (image : Tensor4) (gt : Tensor) (is_training : bool)
  (b prediction_dict : PredictionDict) :
  _build image gt is_training w = (Ok b, w') ->
  (loss prediction_dict w').1 = (loss prediction_dict w).1.
Proof.
  intros Hb. apply build_graph in Hb as (proposals & _ & _ & ->).
  now apply loss_value_frame.
Qed.

Lemma X6_example_loss_after_forward_pass :
  exists b w',
    @_build Example.imports Example.image Example.ground_truth true
            Example.world_regularized = (Ok b, w') /\
    (loss b w').1 = Ok 36 /\
    (loss b Example.world_regularized).1 = Ok 36.
Proof.
  destruct (generate_anchors_run Example.world_regularized Example.feature_map)
    as [anchors Hgen].
  specialize (Hgen Example.world_regularized Example.feature_map
                eq_refl eq_refl eq_refl eq_refl).
  pose proof (@build_run Example.imports Example.world_regularized
                Example.image Example.ground_truth true anchors
                (mkTensor [1; 4]%nat [0; 0; 48; 32]) Hgen eq_refl) as Hb.
  cbv zeta in Hb.
  do 2 eexists. split; [exact Hb|].
  rewrite (X6_forward_pass_does_not_change_the_loss _ _ _ _ _ _ _ _ Hb).
  assert (Hvalue : forall pd,
             (loss pd Example.world_regularized).1 = Ok 36).
  { intros pd.
    rewrite (loss_run Example.world_regularized pd 3 5 4 6
               eq_refl eq_refl eq_refl eq_refl).
    cbn [fst]. f_equal. }
  split; apply Hvalue.
Defined.

(** ** Edges of the anchor generator *)

Lemma grid_cells_empty (grid_width grid_height : nat) :
  grid_width = 0%nat \/ grid_height = 0%nat ->
  grid_cells grid_width grid_height = [].
Proof.
  unfold grid_cells. intros [-> | ->]; [|reflexivity].
  induction (seq 0 grid_height) as [|j l IH]; [reflexivity | exact IH].
Qed.




(** X7: on a feature map with no row or no column the generator returns no
    anchor at all, whatever the reference set holds. *)
Theorem X7_empty_grid_gives_no_anchor (w : World) (feature_map : Tensor4) :
  width feature_map = 0%nat \/ height feature_map = 0%nat ->
  _generate_anchors feature_map w = (Ok [], w).
Proof.
  intros Hempty. unfold _generate_anchors.
  unfold mbind, M_bind, get_self, lift, mret, M_ret.
  cbn [slice tf.shape getitem lookup list_lookup take drop Nat.sub].
  pose proof (shifts_rows (width feature_map) (height feature_map)
                (_anchor_stride (self w))) as Hs.
  destruct (meshgrid _ _) as [gx gy]. rewrite Hs. clear Hs gx gy.
  rewrite (grid_cells_empty _ _ Hempty).
  cbn [map length]. rewrite Nat.mul_0_r. reflexivity.
Qed.

Lemma X7_example_no_column :
  width Edge.feature_map_empty = 0%nat /\
  _generate_anchors Edge.feature_map_empty Example.world =
    (Ok [], Example.world).
Proof.
  split; [reflexivity|].
  apply X7_empty_grid_gives_no_anchor. left. reflexivity.
Defined.





(** X10: the bundle of a forward pass holds [W*H*k] anchors, for the [W]
    columns and [H] rows of the feature map the backbone returns on the image
    and the [k] boxes of the reference set. *)
Theorem X10_bundle_holds_one_anchor_set_per_cell (imports : Imports)
  (w w' : World) (image : Tensor4) (gt : Tensor) (is_training : bool)
  (b : PredictionDict) :
  Forall (fun box => length box = 4%nat) (_anchor_reference (self w)) ->
  _build image gt is_training w = (Ok b, w') ->
  length (all_anchors b) =
    (width (vgg_call (_pretrained (self w)) image) *
     height (vgg_call (_pretrained (self w)) image) *
     length (_anchor_reference (self w)))%nat.
Proof.
  intros Href Hb. apply build_inv in Hb as [_ Hgen].
  rewrite generate_anchors_tile in Hgen by assumption.
  injection Hgen as <-. apply tile_length.
Qed.

Lemma X10_example_bundle_anchors :
  exists b w',
    @_build Example.imports Example.image Example.ground_truth true
            Example.world = (Ok b, w') /\
    length (all_anchors b) = 54%nat.
Proof.
  assert (Href : Forall (fun box => length box = 4%nat)
                        (_anchor_reference (self Example.world)))
    by (vm_compute; repeat constructor).
  pose proof (generate_anchors_tile Example.world Example.feature_map Href)
    as Hgen.
  pose proof (@build_run Example.imports Example.world Example.image
                Example.ground_truth true _
                (mkTensor [1; 4]%nat [0; 0; 48; 32]) Hgen eq_refl) as Hb.
  cbv zeta in Hb.
  do 2 eexists. split; [exact Hb|].
  rewrite (X10_bundle_holds_one_anchor_set_per_cell _ _ _ _ _ _ _ Href Hb).
  reflexivity.
Defined.

(** ** Construction, in full *)


(** X12: an orchestrator that [__init__] returns is made of what the
    constructors returned: its reference anchors are those generated from
    the base size, ratios and scales of the configuration, its anchor count
    is their number and the RPN was built for that count, the RCNN for the
    class count given; it keeps the configuration and the name. *)
Theorem X12_init_assembles_the_sub_components (imports : Imports)
  (config : Config) (num_classes : option nat) (name : string)
  (this : FasterRCNN) :
  __init__ config num_classes name = Ok this ->
  generate_anchors_reference (ANCHOR_BASE_SIZE config)
    (ANCHOR_RATIOS config) (ANCHOR_SCALES config) =
    Ok (_anchor_reference this) /\
  _num_anchors this = length (_anchor_reference this) /\
  VGG (PRETRAINED_TRAINABLE config) = Ok (_pretrained this) /\
  RPN (_num_anchors this) = Ok (_rpn this) /\
  ROIPoolingLayer = Ok (_roi_pool this) /\
  RCNN num_classes = Ok (_rcnn this) /\
  _cfg this = config /\ module_name this = name /\
  _anchor_stride this = ANCHOR_STRIDE config.
Proof.
  unfold __init__, np.array, mbind, result_bind, mret, result_ret.
  destruct (generate_anchors_reference _ _ _) as [reference|]; [|discriminate].
  destruct (VGG _) as [pretrained|]; [|discriminate].
  destruct (RPN _) as [rpn|] eqn:Hrpn; [|discriminate].
  destruct ROIPoolingLayer as [pooling|]; [|discriminate].
  destruct (RCNN _) as [rcnn|]; [|discriminate].
  intros [= <-]. cbn. repeat split. exact Hrpn.
Qed.

Lemma X12_example_sub_components :
  exists this,
    @__init__ Example.imports Example.config (Some 20%nat) "fasterrcnn" =
      Ok this /\
    _num_anchors this = 9%nat /\
    length (_anchor_reference this) = 9%nat /\
    module_name this = "fasterrcnn".
Proof.
  eexists. split; [reflexivity|].
  destruct (X12_init_assembles_the_sub_components Example.imports
              Example.config (Some 20%nat) "fasterrcnn" _ eq_refl)
    as (_ & Hnum & _ & _ & _ & _ & _ & Hname & _).
  split; [reflexivity|]. split; [rewrite <- Hnum; reflexivity | exact Hname].
Defined.

(** X13: the stride plays no part in construction: for two configurations
    that agree on the base size, the scales, the ratios and the trainable
    flag, [__init__] raises the same exception, or returns orchestrators with
    the same reference anchors and sub-components that differ only in the
    configuration and the stride they store. *)
Theorem X13_init_does_not_look_at_the_stride (imports : Imports)
  (config config' : Config) (num_classes : option nat) (name : string) :
  ANCHOR_BASE_SIZE config' = ANCHOR_BASE_SIZE config ->
  ANCHOR_SCALES config' = ANCHOR_SCALES config ->
  ANCHOR_RATIOS config' = ANCHOR_RATIOS config ->
  PRETRAINED_TRAINABLE config' = PRETRAINED_TRAINABLE config ->
  __init__ config' num_classes name =
  match __init__ config num_classes name with
  | Ok this =>
      Ok (mkFasterRCNN (module_name this) config' (_num_classes this)
            (_anchor_base_size this) (_anchor_scales this)
            (_anchor_ratios this) (ANCHOR_STRIDE config')
            (_anchor_reference this) (_num_anchors this)
            (_rpn_cls_loss_weight this) (_rpn_reg_loss_weight this)
            (_rcnn_cls_loss_weight this) (_rcnn_reg_loss_weight this)
            (_pretrained this) (_rpn this) (_roi_pool this) (_rcnn this))
  | Raise e => Raise e
  end.
Proof.
  intros Hbase Hscales Hratios Htrainable.
  unfold __init__, np.array, mbind, result_bind, mret, result_ret.
  rewrite Hbase, Hscales, Hratios, Htrainable.
  destruct (generate_anchors_reference _ _ _) as [reference|]; [|reflexivity].
  destruct (VGG _) as [pretrained|]; [|reflexivity].
  destruct (RPN _) as [rpn|]; [|reflexivity].
  destruct ROIPoolingLayer as [pooling|]; [|reflexivity].
  destruct (RCNN _) as [rcnn|]; reflexivity.
Qed.

Lemma X13_example_strides_16_and_0 :
  exists this this',
    @__init__ Example.imports Example.config (Some 20%nat) "fasterrcnn" =
      Ok this /\
    @__init__ Example.imports Example.config_stride_0 (Some 20%nat)
              "fasterrcnn" = Ok this' /\
    _anchor_reference this' = _anchor_reference this /\
    _anchor_stride this = 16 /\ _anchor_stride this' = 0.
Proof.
  pose proof (X13_init_does_not_look_at_the_stride Example.imports
                Example.config Example.config_stride_0 (Some 20%nat)
                "fasterrcnn" eq_refl eq_refl eq_refl eq_refl) as Hsame.
  do 2 eexists. split; [reflexivity|]. split; [exact Hsame|].
  repeat split.
Defined.
